(** * Inventory optimisation server: safety stock and lead-time simulation

    A shallow embedding of [server.py] (the two tools [optimize_safety_stock]
    and [simulate_lead_time]) together with the properties its specification
    states about them.

    Numbers.  A Python float is modelled as an exact real number or NaN, the
    value numpy returns for the statistics of an empty sequence.  Rounding
    error, overflow and the infinities are outside the model.

    Effects.  Exceptions are an error type threaded through a small monad; the
    upstream HTTP exchange, the wall clock and the random number generator are
    explicit arguments of the tools. *)

From Stdlib Require Import Reals Lra Lia.
From stdpp Require Import base option list strings pretty gmap.

(** ** Floats *)

Inductive float :=
  | Fin (x : R)
  | NaN.

Definition fadd (a b : float) : float :=
  match a, b with Fin x, Fin y => Fin (x + y) | _, _ => NaN end.

Definition fsub (a b : float) : float :=
  match a, b with Fin x, Fin y => Fin (x - y) | _, _ => NaN end.

Definition fmul (a b : float) : float :=
  match a, b with Fin x, Fin y => Fin (x * y) | _, _ => NaN end.

(** Division by a non-zero count; the only divisions of the program. *)
Definition fdiv (a b : float) : float :=
  match a, b with Fin x, Fin y => Fin (x / y) | _, _ => NaN end.

Definition fsqrt (a : float) : float :=
  match a with
  | Fin x => if Rlt_dec x 0 then NaN else Fin (sqrt x)
  | NaN => NaN
  end.

(** Python's [a < b] and [a >= b]: every comparison with NaN is false. *)
Definition flt (a b : float) : bool :=
  match a, b with
  | Fin x, Fin y => if Rlt_dec x y then true else false
  | _, _ => false
  end.

Definition fge (a b : float) : bool :=
  match a, b with
  | Fin x, Fin y => if Rle_dec y x then true else false
  | _, _ => false
  end.

Definition of_int (n : Z) : float := Fin (IZR n).

(** Round half to even, the rounding of Python's [round] and numpy's. *)
Definition rint (x : R) : Z :=
  let n := Int_part x in
  let f := (x - IZR n)%R in
  if Rlt_dec f (1/2) then n
  else if Rlt_dec (1/2) f then (n + 1)%Z
  else if Z.even n then n else (n + 1)%Z.

(** [round(a, ndigits)]; NaN rounds to itself. *)
Definition round (a : float) (ndigits : nat) : float :=
  match a with
  | Fin x => Fin (IZR (rint (x * 10 ^ ndigits)) / 10 ^ ndigits)
  | NaN => NaN
  end.

(** ** numpy: [np.mean] and [np.std] (ddof = 0) *)

Definition fsum (a : list float) : float := foldl fadd (Fin 0) a.

(** Sum over count; for the empty sequence numpy computes 0.0 / 0, warns
    "Mean of empty slice" and returns nan. *)
Definition np_mean (a : list float) : float :=
  match a with
  | [] => NaN
  | _ => fdiv (fsum a) (Fin (INR (length a)))
  end.

(** numpy's [_var]: the mean of the squared deviations from the mean. *)
Definition np_var (a : list float) : float :=
  let arrmean := np_mean a in
  np_mean (map (fun x => fmul (fsub x arrmean) (fsub x arrmean)) a).

Definition np_std (a : list float) : float := fsqrt (np_var a).

(** ** Exceptions *)

Inductive exn :=
  | KeyError (key : string)
  | ClientError (msg : string)
  | OverflowError (msg : string)
  | ValueError (msg : string)
  | Exception (msg : string).

(** [str(e)]; a [KeyError] prints the repr of its key. *)
Definition str (e : exn) : string :=
  match e with
  | KeyError key => "'" +:+ key +:+ "'"
  | ClientError msg => msg
  | OverflowError msg => msg
  | ValueError msg => msg
  | Exception msg => msg
  end.

Inductive result (A : Type) :=
  | Ok (a : A)
  | Raise (e : exn).
Arguments Ok {A} a.
Arguments Raise {A} e.

#[global] Instance result_bind : MBind result := fun A B k m =>
  match m with Ok a => k a | Raise e => Raise e end.

(** [try: body except ...: handler]. *)
Definition try_except {A} (body : result A) (handler : exn -> result A)
  : result A :=
  match body with Ok a => Ok a | Raise e => handler e end.

(** ** Records: JSON objects whose fields hold numbers *)

Definition getitem (record : gmap string float) (key : string)
  : result float :=
  match record !! key with
  | Some v => Ok v
  | None => Raise (KeyError key)
  end.

(** [[f(x) for x in l]], evaluated left to right. *)
Fixpoint comprehension {A B} (f : A -> result B) (l : list A)
  : result (list B) :=
  match l with
  | [] => Ok []
  | x :: l' => y ← f x; ys ← comprehension f l'; Ok (y :: ys)
  end.

(** ** optimize_safety_stock *)

(** What [session.get] and [response.json()] deliver. *)
Inductive upstream :=
  | ClientErrorRaised (msg : string)
  | Response (status : Z) (json : list (gmap string float)).

Record SafetyStockResult := {
  item_id : string;
  safety_stock : float;
  average_demand : float;
  std_demand : float;
  service_level : float;
  data_points : nat
}.

Definition process_historical_data (item : string)
    (desired_service_level : float)
    (historical_data : list (gmap string float))
  : result SafetyStockResult :=
  try_except
    (demands ← comprehension (fun record => getitem record "demand")
                             historical_data;
     match demands with
     | [] => Raise (Exception "No demand data found in historical records")
     | _ =>
       let avg_demand := np_mean demands in
       let std_demand := np_std demands in
       let z_score := Fin 1.96 in
       let safety_stock := fmul z_score std_demand in
       Ok {| item_id := item;
             safety_stock := round safety_stock 2;
             average_demand := round avg_demand 2;
             std_demand := round std_demand 2;
             service_level := desired_service_level;
             data_points := length historical_data |}
     end)
    (fun e =>
       match e with
       | KeyError _ =>
         Raise (Exception
                  ("Invalid data format in historical records: " +:+ str e))
       | _ =>
         Raise (Exception ("Error processing historical data: " +:+ str e))
       end).

Definition optimize_safety_stock (item : string)
    (desired_service_level : float) (net : upstream)
  : result SafetyStockResult :=
  try_except
    (match net with
     | ClientErrorRaised msg => Raise (ClientError msg)
     | Response status historical_data =>
       if bool_decide (status <> 200%Z) then
         Raise (Exception
                  ("Failed to fetch historical data: HTTP " +:+ pretty status))
       else
         match historical_data with
         | [] => Raise (Exception "No historical data received from API")
         | _ => process_historical_data item desired_service_level
                                        historical_data
         end
     end)
    (fun e =>
       match e with
       | ClientError _ =>
         Raise (Exception
                  ("Error connecting to historical data API: " +:+ str e))
       | _ => Raise (Exception ("Unexpected error: " +:+ str e))
       end).

(** ** datetime *)

(** A naive [datetime]: the proleptic Gregorian ordinal of its date (day 1
    is 0001-01-01) and its time of day. *)
Record datetime := {
  toordinal : Z;
  hour : Z;
  minute : Z;
  second : Z;
  microsecond : Z
}.

Definition MAXORDINAL : Z := 3652059. (* 9999-12-31 *)

(** [d + timedelta(days=days)]. *)
Definition add_days (d : datetime) (days : Z) : result datetime :=
  let n := (toordinal d + days)%Z in
  if bool_decide (0 < n <= MAXORDINAL)%Z then
    Ok {| toordinal := n; hour := hour d; minute := minute d;
          second := second d; microsecond := microsecond d |}
  else Raise (OverflowError "date value out of range").

(** Microseconds since the start of day 0, the chronological order. *)
Definition timestamp (d : datetime) : Z :=
  ((((toordinal d * 24 + hour d) * 60 + minute d) * 60 + second d)
   * 1000000 + microsecond d)%Z.

Definition DAYS_IN_MONTH : list Z :=
  [-1; 31; 28; 31; 30; 31; 30; 31; 31; 30; 31; 30; 31]%Z.

Definition DAYS_BEFORE_MONTH : list Z :=
  [-1; 0; 31; 59; 90; 120; 151; 181; 212; 243; 273; 304; 334]%Z.

Definition Z_of_bool (b : bool) : Z := if b then 1%Z else 0%Z.

(** [_ord2ymd]: ordinal to (year, month, day). *)
Definition ord2ymd (n : Z) : Z * Z * Z :=
  let n := (n - 1)%Z in
  let n400 := (n / 146097)%Z in
  let n := (n mod 146097)%Z in
  let year := (n400 * 400 + 1)%Z in
  let n100 := (n / 36524)%Z in
  let n := (n mod 36524)%Z in
  let n4 := (n / 1461)%Z in
  let n := (n mod 1461)%Z in
  let n1 := (n / 365)%Z in
  let n := (n mod 365)%Z in
  let year := (year + n100 * 100 + n4 * 4 + n1)%Z in
  if ((n1 =? 4) || (n100 =? 4))%Z then ((year - 1)%Z, 12%Z, 31%Z)
  else
    let leapyear := ((n1 =? 3) && (negb (n4 =? 24) || (n100 =? 3)))%Z in
    let month := Z.shiftr (n + 50) 5 in
    let preceding :=
      (nth (Z.to_nat month) DAYS_BEFORE_MONTH 0
       + Z_of_bool ((2 <? month)%Z && leapyear))%Z in
    if (n <? preceding)%Z then
      let month := (month - 1)%Z in
      let preceding :=
        (preceding - (nth (Z.to_nat month) DAYS_IN_MONTH 0
                      + Z_of_bool ((month =? 2)%Z && leapyear)))%Z in
      (year, month, (n - preceding + 1)%Z)
    else (year, month, (n - preceding + 1)%Z).

Fixpoint zeros (n : nat) : string :=
  match n with O => "" | S k => "0" +:+ zeros k end.

(** ["%0<width>d" % n] for a non-negative [n]. *)
Definition zfill (width : nat) (n : Z) : string :=
  let s := pretty n in zeros (width - String.length s) +:+ s.

(** [d.isoformat()], with microseconds only when they are not zero. *)
Definition isoformat (d : datetime) : string :=
  let '(y, m, dd) := ord2ymd (toordinal d) in
  zfill 4 y +:+ "-" +:+ zfill 2 m +:+ "-" +:+ zfill 2 dd +:+ "T"
  +:+ zfill 2 (hour d) +:+ ":" +:+ zfill 2 (minute d) +:+ ":"
  +:+ zfill 2 (second d)
  +:+ (if (microsecond d =? 0)%Z then ""
       else "." +:+ zfill 6 (microsecond d)).

(** ** numpy's global random state *)

(** The standard normal variates the generator will hand out, in order. *)
Definition RandomState := nat -> R.

Definition gauss (rs : RandomState) : R * RandomState :=
  (rs O, fun k => rs (S k)).

(** [np.random.normal(loc, scale)]: [loc + scale * gauss()], after the check
    that the scale is not negative. *)
Definition np_random_normal (loc scale : float) (rs : RandomState)
  : result (float * RandomState) :=
  if flt scale (Fin 0) then Raise (ValueError "scale < 0")
  else
    let '(z, rs') := gauss rs in
    Ok (fadd loc (fmul scale (Fin z)), rs').

(** ** simulate_lead_time *)

Record SimulationDay := {
  date : string;
  inventory_level : float
}.

Record SimulationResult := {
  sim_item_id : string;
  average_lead_time : float;
  std_lead_time : float;
  simulation_results : list SimulationDay
}.

(** The variables the day loop updates. *)
Record loop_state := {
  current_inventory : float;
  inventory_levels : list SimulationDay;
  random_state : RandomState
}.

(** The body of [for day in range(simulation_days)]. *)
Definition loop_body (start_date : datetime) (avg_daily_demand : float)
    (daily_demands : list float) (st : loop_state) (day : nat)
  : result loop_state :=
  draw ← np_random_normal avg_daily_demand (np_std daily_demands)
                          (random_state st);
  let daily_demand := draw.1 in
  let current_inventory := fsub (current_inventory st) daily_demand in
  let current_inventory :=
    if flt current_inventory (Fin 20)
    then fadd current_inventory (Fin 100)
    else current_inventory in
  d ← add_days start_date (Z.of_nat day);
  Ok {| current_inventory := current_inventory;
        inventory_levels :=
          inventory_levels st
          ++ [ {| date := isoformat d;
                  inventory_level := round current_inventory 2 |} ];
        random_state := draw.2 |}.

Fixpoint for_each {S A} (body : S -> A -> result S) (items : list A) (s : S)
  : result S :=
  match items with
  | [] => Ok s
  | x :: items' => s' ← body s x; for_each body items' s'
  end.

Definition simulation_days : nat := 30.

Definition simulate_lead_time (item : string) (lead_times : list Z)
    (demand_data : list (gmap string float))
    (now : datetime) (rs : RandomState)
  : result SimulationResult :=
  let avg_lead_time := np_mean (map of_int lead_times) in
  let std_lead_time := np_std (map of_int lead_times) in
  let start_date := now in
  daily_demands ← comprehension (fun record => getitem record "quantity")
                                demand_data;
  let avg_daily_demand := np_mean daily_demands in
  st ← for_each (loop_body start_date avg_daily_demand daily_demands)
                (seq 0 simulation_days)
                {| current_inventory := Fin 100;
                   inventory_levels := [];
                   random_state := rs |};
  Ok {| sim_item_id := item;
        average_lead_time := round avg_lead_time 2;
        std_lead_time := round std_lead_time 2;
        simulation_results := inventory_levels st |}.

(** ** Error kinds, as a caller can tell them apart *)

Inductive error_kind :=
  | UpstreamUnavailableError
  | EmptyDataError
  | MalformedRecordError.

(** The kind a caller reads off the text of a failure. *)
Definition kind_of_message (msg : string) : option error_kind :=
  if String.prefix "Error connecting to historical data API: " msg
  then Some UpstreamUnavailableError
  else if String.prefix
            "Unexpected error: Failed to fetch historical data: HTTP " msg
  then Some UpstreamUnavailableError
  else if String.eqb msg
            "Unexpected error: No historical data received from API"
  then Some EmptyDataError
  else if String.prefix
            "Unexpected error: Invalid data format in historical records: "
            msg
  then Some MalformedRecordError
  else None.

Definition kind_of_exn (e : exn) : option error_kind :=
  match e with
  | KeyError _ => Some MalformedRecordError
  | Exception msg => kind_of_message msg
  | _ => None
  end.

Definition has_field (key : string) (record : gmap string float) : bool :=
  bool_decide (is_Some (record !! key)).


(** ** The statistics and the day-by-day state, in the specification's words *)

Definition Rsum (xs : list R) : R := fold_right Rplus 0%R xs.

(** Population mean: the sum over the sample size. *)
Definition population_mean (xs : list R) : R :=
  (Rsum xs / INR (length xs))%R.

Definition squared_deviations (xs : list R) : list R :=
  map (fun x => ((x - population_mean xs) * (x - population_mean xs))%R) xs.

(** Population standard deviation: the divisor is the sample size [n]. *)
Definition population_std (xs : list R) : R :=
  sqrt (Rsum (squared_deviations xs) / INR (length xs)).

(** Sample standard deviation: the divisor is [n - 1]. *)
Definition sample_std (xs : list R) : R :=
  sqrt (Rsum (squared_deviations xs) / (INR (length xs) - 1)).

(** The demand drawn on day [d]: the [d]-th variate of the generator, scaled
    by the statistics of the demand records. *)
Definition drawn_demand (daily_demands : list float) (rs : RandomState)
    (d : nat) : float :=
  fadd (np_mean daily_demands) (fmul (np_std daily_demands) (Fin (rs d))).

(** One day: subtract the demand, then replenish by 100 if and only if the
    stock is below 20. *)
Definition day_transition (inventory demand : float) : float :=
  let after_demand := fsub inventory demand in
  if flt after_demand (Fin 20) then fadd after_demand (Fin 100)
  else after_demand.

(** The stock at the end of [d] simulated days, starting from 100. *)
Fixpoint inventory_after (demand : nat -> float) (d : nat) : float :=
  match d with
  | O => Fin 100
  | S k => day_transition (inventory_after demand k) (demand k)
  end.

(** The datetime [days] days after [d], when it exists. *)
Definition plus_days (d : datetime) (days : Z) : datetime :=
  {| toordinal := toordinal d + days; hour := hour d; minute := minute d;
     second := second d; microsecond := microsecond d |}.

(** The entry of day [d]: its date, and the stock at the end of that day
    rounded to 2 decimals. *)
Definition day_entry (now : datetime) (demand : nat -> float) (d : nat)
  : SimulationDay :=
  {| date := isoformat (plus_days now (Z.of_nat d));
     inventory_level := round (inventory_after demand (S d)) 2 |}.

(** A call time used in examples: 2024-01-01 09:30:00. *)
Definition example_now : datetime :=
  {| toordinal := 738886; hour := 9; minute := 30; second := 0;
     microsecond := 0 |}.

(** ** optimize_safety_stock with its log lines *)

Inductive log_level := INFO | ERROR.

Record log_record := {
  levelname : log_level;
  message : string
}.

(** A computation that logs: the lines it emitted, and how it ended. *)
Definition logging (A : Type) : Type := (list log_record * result A)%type.

Definition log_return {A} (a : A) : logging A := ([], Ok a).

Definition log_raise {A} (e : exn) : logging A := ([], Raise e).

Definition lift {A} (r : result A) : logging A := ([], r).

Definition logger_info (msg : string) : logging unit :=
  ([ {| levelname := INFO; message := msg |} ], Ok tt).

Definition logger_error (msg : string) : logging unit :=
  ([ {| levelname := ERROR; message := msg |} ], Ok tt).

#[global] Instance logging_bind : MBind logging := fun A B k m =>
  match m with
  | (l, Ok a) => let '(l', r) := k a in (l ++ l', r)
  | (l, Raise e) => (l, Raise e)
  end.

(** [try: body except ...: handler]; the lines of the body stay logged. *)
Definition log_try_except {A} (body : logging A)
    (handler : exn -> logging A) : logging A :=
  match body with
  | (l, Ok a) => (l, Ok a)
  | (l, Raise e) => let '(l', r) := handler e in (l ++ l', r)
  end.

(** Lines 54-89 with their [logger] calls.  [format_result] is the text of
    the result dictionary inside the f-string of line 79. *)
Definition process_historical_data_logged
    (format_result : SafetyStockResult -> string) (item : string)
    (desired_service_level : float)
    (historical_data : list (gmap string float))
  : logging SafetyStockResult :=
  log_try_except
    (demands ← lift (comprehension (fun record => getitem record "demand")
                                   historical_data);
     match demands with
     | [] =>
       let error_msg := "No demand data found in historical records" in
       _ ← logger_error error_msg;
       log_raise (Exception error_msg)
     | _ =>
       let avg_demand := np_mean demands in
       let std_demand := np_std demands in
       let z_score := Fin 1.96 in
       let safety_stock := fmul z_score std_demand in
       let result :=
         {| item_id := item;
            safety_stock := round safety_stock 2;
            average_demand := round avg_demand 2;
            std_demand := round std_demand 2;
            service_level := desired_service_level;
            data_points := length historical_data |} in
       _ ← logger_info ("Successfully calculated safety stock for item "
                        +:+ item +:+ ": " +:+ format_result result);
       log_return result
     end)
    (fun e =>
       match e with
       | KeyError _ =>
         let error_msg :=
           "Invalid data format in historical records: " +:+ str e in
         _ ← logger_error error_msg;
         log_raise (Exception error_msg)
       | _ =>
         let error_msg := "Error processing historical data: " +:+ str e in
         _ ← logger_error error_msg;
         log_raise (Exception error_msg)
       end).

(** Lines 34-98 with their [logger] calls. *)
Definition optimize_safety_stock_logged
    (format_result : SafetyStockResult -> string) (item : string)
    (desired_service_level : float) (net : upstream)
  : logging SafetyStockResult :=
  log_try_except
    (_ ← logger_info ("Fetching historical data for item " +:+ item);
     match net with
     | ClientErrorRaised msg => log_raise (ClientError msg)
     | Response status historical_data =>
       if bool_decide (status <> 200%Z) then
         let error_msg :=
           "Failed to fetch historical data: HTTP " +:+ pretty status in
         _ ← logger_error error_msg;
         log_raise (Exception error_msg)
       else
         _ ← logger_info ("Received " +:+ pretty (length historical_data)
                          +:+ " data points for item " +:+ item);
         match historical_data with
         | [] =>
           let error_msg := "No historical data received from API" in
           _ ← logger_error error_msg;
           log_raise (Exception error_msg)
         | _ => process_historical_data_logged format_result item
                  desired_service_level historical_data
         end
     end)
    (fun e =>
       match e with
       | ClientError _ =>
         let error_msg :=
           "Error connecting to historical data API: " +:+ str e in
         _ ← logger_error error_msg;
         log_raise (Exception error_msg)
       | _ =>
         let error_msg := "Unexpected error: " +:+ str e in
         _ ← logger_error error_msg;
         log_raise (Exception error_msg)
       end).

Definition info_line (msg : string) : log_record :=
  {| levelname := INFO; message := msg |}.

Definition error_line (msg : string) : log_record :=
  {| levelname := ERROR; message := msg |}.




(** * Properties *)

(** ** Checks of the calendar code on known dates *)

Example ord2ymd_2024_01_01 : ord2ymd 738886 = (2024, 1, 1)%Z.
Proof. reflexivity. Qed.

Example ord2ymd_2000_02_29 : ord2ymd 730179 = (2000, 2, 29)%Z.
Proof. reflexivity. Qed.

Example ord2ymd_max : ord2ymd MAXORDINAL = (9999, 12, 31)%Z.
Proof. reflexivity. Qed.

Example isoformat_example :
  isoformat {| toordinal := 738964; hour := 9; minute := 5; second := 0;
               microsecond := 0 |} = "2024-03-19T09:05:00".
Proof. reflexivity. Qed.

Example isoformat_micro :
  isoformat {| toordinal := 1; hour := 23; minute := 59; second := 59;
               microsecond := 1200 |} = "0001-01-01T23:59:59.001200".
Proof. reflexivity. Qed.

(** ** Records with a missing field *)

Lemma getitem_Some (record : gmap string float) key v :
  record !! key = Some v -> getitem record key = Ok v.
Proof. intros H. unfold getitem. rewrite H. reflexivity. Qed.

Lemma getitem_None (record : gmap string float) key :
  record !! key = None -> getitem record key = Raise (KeyError key).
Proof. intros H. unfold getitem. rewrite H. reflexivity. Qed.

Lemma comprehension_missing key (l : list (gmap string float)) :
  (exists record, record ∈ l /\ record !! key = None) ->
  comprehension (fun record => getitem record key) l = Raise (KeyError key).
Proof.
  induction l as [|x l IH]; intros (r & Hin & Hr).
  - inversion Hin.
  - cbn [comprehension]. destruct (x !! key) as [v|] eqn:Hx.
    + rewrite (getitem_Some _ _ _ Hx). cbn.
      rewrite IH; [reflexivity|].
      apply elem_of_cons in Hin as [->|Hin]; [congruence|eauto].
    + rewrite (getitem_None _ _ Hx). reflexivity.
Qed.

Lemma comprehension_present key (l : list (gmap string float)) :
  forallb (has_field key) l = true ->
  exists vs, comprehension (fun record => getitem record key) l = Ok vs
             /\ length vs = length l
             /\ Forall2 (fun record v => record !! key = Some v) l vs.
Proof.
  induction l as [|x l IH]; cbn [forallb]; intros H.
  - exists []. repeat split; constructor.
  - apply andb_prop in H as [Hx Hl].
    apply bool_decide_eq_true in Hx as [v Hv].
    destruct (IH Hl) as (vs & Hvs & Hlen & Hall).
    exists (v :: vs). cbn [comprehension].
    rewrite (getitem_Some _ _ _ Hv). cbn. rewrite Hvs. cbn.
    repeat split; [congruence|by constructor].
Qed.

(** C7: a record that lacks its expected field makes the call fail with a
    malformed-record error naming the field: [optimize_safety_stock] when a
    historical record lacks 'demand', [simulate_lead_time] when a demand
    record lacks 'quantity'. *)
Theorem missing_field_is_malformed_record_error
    (item : string) (desired_service_level : float)
    (historical_data demand_data : list (gmap string float))
    (lead_times : list Z) (now : datetime) (rs : RandomState) :
  ((exists record, record ∈ historical_data /\ record !! "demand" = None) ->
   exists e,
     optimize_safety_stock item desired_service_level
       (Response 200 historical_data) = Raise e
     /\ e = Exception "Unexpected error: Invalid data format in historical records: 'demand'"
     /\ kind_of_exn e = Some MalformedRecordError)
  /\
  ((exists record, record ∈ demand_data /\ record !! "quantity" = None) ->
   exists e,
     simulate_lead_time item lead_times demand_data now rs = Raise e
     /\ e = KeyError "quantity"
     /\ kind_of_exn e = Some MalformedRecordError).
Proof.
  split; intros Hmiss.
  - eexists; split; [|split; reflexivity].
    unfold optimize_safety_stock. cbn.
    destruct historical_data as [|r0 l0] eqn:E.
    + destruct Hmiss as (r & Hin & _). inversion Hin.
    + rewrite <- E in *. unfold process_historical_data.
      rewrite (comprehension_missing _ _ Hmiss). reflexivity.
  - eexists; split; [|split; reflexivity].
    unfold simulate_lead_time.
    rewrite (comprehension_missing _ _ Hmiss). reflexivity.
Qed.

Lemma missing_field_is_malformed_record_error_witness :
  (exists e,
     optimize_safety_stock "A1" (Fin 0.95)
       (Response 200 [ {[ "demand" := Fin 10 ]}; {[ "date" := Fin 2 ]} ])
     = Raise e
     /\ e = Exception "Unexpected error: Invalid data format in historical records: 'demand'"
     /\ kind_of_exn e = Some MalformedRecordError)
  /\
  (exists e,
     simulate_lead_time "A1" [5; 7; 6]%Z
       [ {[ "quantity" := Fin 4 ]}; {[ "date" := Fin 2 ]} ]
       {| toordinal := 738886; hour := 0; minute := 0; second := 0;
          microsecond := 0 |} (fun _ => 0%R)
     = Raise e
     /\ e = KeyError "quantity"
     /\ kind_of_exn e = Some MalformedRecordError).
Proof.
  split.
  - apply (missing_field_is_malformed_record_error "A1" (Fin 0.95)
             [ {[ "demand" := Fin 10 ]}; {[ "date" := Fin 2 ]} ] [] []
             {| toordinal := 738886; hour := 0; minute := 0; second := 0;
                microsecond := 0 |} (fun _ => 0%R)).
    exists {[ "date" := Fin 2 ]}. split; [|reflexivity].
    apply elem_of_cons; right. apply elem_of_cons; left. reflexivity.
  - apply (missing_field_is_malformed_record_error "A1" (Fin 0.95) []
             [ {[ "quantity" := Fin 4 ]}; {[ "date" := Fin 2 ]} ]
             [5; 7; 6]%Z).
    exists {[ "date" := Fin 2 ]}. split; [|reflexivity].
    apply elem_of_cons; right. apply elem_of_cons; left. reflexivity.
Defined.

(** ** Rounding *)

Lemma pow_10_2 : (10 ^ 2 = 100)%R.
Proof. simpl. lra. Qed.

Lemma Int_part_bounds (x : R) :
  (IZR (Int_part x) <= x < IZR (Int_part x) + 1)%R.
Proof. destruct (base_Int_part x). lra. Qed.

Lemma IZR_between (a b : Z) (x : R) :
  (IZR a <= x < IZR a + 1)%R -> (IZR b <= x < IZR b + 1)%R -> a = b.
Proof.
  intros [Ha1 Ha2] [Hb1 Hb2].
  assert (a < b + 1)%Z by (apply lt_IZR; rewrite plus_IZR; lra).
  assert (b < a + 1)%Z by (apply lt_IZR; rewrite plus_IZR; lra).
  lia.
Qed.

Lemma rint_nearest (x : R) (n : Z) :
  (IZR n - 1/2 < x < IZR n + 1/2)%R -> rint x = n.
Proof.
  intros [Hlo Hhi]. unfold rint.
  pose proof (Int_part_bounds x) as Hb.
  destruct (Rle_lt_dec (IZR n) x) as [Hge|Hlt].
  - assert (Int_part x = n) as -> by (apply (IZR_between _ _ x); lra).
    destruct (Rlt_dec _ _) as [|Hn]; [reflexivity|lra].
  - assert (Int_part x = (n - 1)%Z) as ->.
    { apply (IZR_between _ _ x); [lra|rewrite minus_IZR; lra]. }
    rewrite minus_IZR.
    destruct (Rlt_dec _ _) as [|_]; [lra|].
    destruct (Rlt_dec _ _) as [_|Hn]; [lia|lra].
Qed.

Lemma rint_IZR (n : Z) : rint (IZR n) = n.
Proof. apply rint_nearest. lra. Qed.

Lemma rint_nonneg (x : R) : (0 <= x)%R -> (0 <= rint x)%Z.
Proof.
  intros Hx. unfold rint.
  pose proof (Int_part_bounds x) as Hb.
  assert (0 <= Int_part x)%Z.
  { assert (-1 < Int_part x)%Z by (apply lt_IZR; lra). lia. }
  repeat destruct (Rlt_dec _ _); try destruct (Z.even _); lia.
Qed.

(** ** The statistics of a sequence of numbers *)

Lemma foldl_fadd_Fin (xs : list R) (acc : R) :
  foldl fadd (Fin acc) (map Fin xs) = Fin (acc + Rsum xs).
Proof.
  revert acc. induction xs as [|x xs IH]; intros acc; simpl.
  - f_equal. lra.
  - rewrite IH. f_equal. lra.
Qed.

Lemma fsum_Fin (xs : list R) : fsum (map Fin xs) = Fin (Rsum xs).
Proof. unfold fsum. rewrite foldl_fadd_Fin. f_equal. lra. Qed.

Lemma np_mean_Fin (xs : list R) :
  xs <> [] -> np_mean (map Fin xs) = Fin (population_mean xs).
Proof.
  intros Hne. unfold np_mean, population_mean.
  destruct xs as [|x xs]; [congruence|].
  cbn [map]. change (Fin x :: map Fin xs) with (map Fin (x :: xs)).
  rewrite fsum_Fin, length_map. reflexivity.
Qed.

Lemma np_var_Fin (xs : list R) :
  xs <> [] ->
  np_var (map Fin xs)
  = Fin (Rsum (squared_deviations xs) / INR (length xs)).
Proof.
  intros Hne. unfold np_var. rewrite (np_mean_Fin xs Hne).
  rewrite map_map. cbn [fsub fmul].
  rewrite <- (map_map (fun x => ((x - population_mean xs)
                                 * (x - population_mean xs))%R) Fin).
  fold (squared_deviations xs).
  rewrite np_mean_Fin.
  - unfold population_mean, squared_deviations. rewrite length_map.
    reflexivity.
  - unfold squared_deviations. destruct xs; [congruence|discriminate].
Qed.

Lemma Rsum_squared_deviations_nonneg (xs : list R) :
  (0 <= Rsum (squared_deviations xs))%R.
Proof.
  unfold squared_deviations. generalize (population_mean xs) as m.
  intros m. induction xs as [|x xs IH]; simpl; [lra|].
  pose proof (Rle_0_sqr (x - m)) as H. unfold Rsqr in H. lra.
Qed.

Lemma variance_nonneg (xs : list R) :
  xs <> [] -> (0 <= Rsum (squared_deviations xs) / INR (length xs))%R.
Proof.
  intros Hne. apply Rle_mult_inv_pos.
  - apply Rsum_squared_deviations_nonneg.
  - apply lt_0_INR. destruct xs; [congruence|simpl; lia].
Qed.

Lemma np_std_Fin (xs : list R) :
  xs <> [] -> np_std (map Fin xs) = Fin (population_std xs).
Proof.
  intros Hne. unfold np_std. rewrite (np_var_Fin xs Hne). unfold fsqrt.
  pose proof (variance_nonneg xs Hne).
  destruct (Rlt_dec _ _); [lra|reflexivity].
Qed.

(** The standard deviation numpy returns is never below zero. *)
Lemma np_std_not_negative (a : list float) : flt (np_std a) (Fin 0) = false.
Proof.
  unfold np_std, fsqrt. destruct (np_var a) as [x|]; [|reflexivity].
  destruct (Rlt_dec x 0); [reflexivity|]. unfold flt.
  pose proof (sqrt_pos x). destruct (Rlt_dec _ _); [lra|reflexivity].
Qed.

(** ** The example [8, 12, 10, 10] *)

Lemma example_mean : population_mean [8; 12; 10; 10]%R = 10%R.
Proof. unfold population_mean. simpl. lra. Qed.

Lemma example_std : population_std [8; 12; 10; 10]%R = sqrt 2.
Proof.
  unfold population_std, squared_deviations. rewrite example_mean.
  f_equal. simpl. lra.
Qed.

Lemma example_sample_std : sample_std [8; 12; 10; 10]%R = sqrt (8 / 3).
Proof.
  unfold sample_std, squared_deviations. rewrite example_mean.
  f_equal. simpl. lra.
Qed.

Lemma sqrt_2_bounds : (1.414 < sqrt 2 < 1.415)%R.
Proof.
  split.
  - rewrite <- (sqrt_square 1.414) by lra. apply sqrt_lt_1_alt. lra.
  - rewrite <- (sqrt_square 1.415) by lra. apply sqrt_lt_1_alt. lra.
Qed.

Lemma round_safety_stock_example :
  round (fmul (Fin 1.96) (Fin (sqrt 2))) 2 = Fin 2.77.
Proof.
  cbn [fmul round]. rewrite pow_10_2.
  rewrite (rint_nearest _ 277).
  - f_equal; try lra.
  - pose proof sqrt_2_bounds. lra.
Qed.

(** ** optimize_safety_stock on well-formed upstream data *)

Lemma comprehension_Forall2 key (l : list (gmap string float)) vs :
  Forall2 (fun record v => record !! key = Some v) l vs ->
  comprehension (fun record => getitem record key) l = Ok vs.
Proof.
  induction 1 as [|record v l vs Hv _ IH]; [reflexivity|].
  cbn [comprehension]. rewrite (getitem_Some _ _ _ Hv). cbn.
  rewrite IH. reflexivity.
Qed.

Lemma optimize_safety_stock_returns item desired_service_level
    (historical_data : list (gmap string float)) (demands : list float) :
  historical_data <> [] ->
  Forall2 (fun record v => record !! "demand" = Some v)
          historical_data demands ->
  optimize_safety_stock item desired_service_level
    (Response 200 historical_data)
  = Ok {| item_id := item;
          safety_stock := round (fmul (Fin 1.96) (np_std demands)) 2;
          average_demand := round (np_mean demands) 2;
          std_demand := round (np_std demands) 2;
          service_level := desired_service_level;
          data_points := length historical_data |}.
Proof.
  intros Hne Hall. unfold optimize_safety_stock. cbn [bool_decide].
  rewrite bool_decide_eq_false_2 by (intros H; apply H; reflexivity).
  destruct historical_data as [|r0 l0] eqn:E; [congruence|].
  rewrite <- E in *. unfold process_historical_data.
  rewrite (comprehension_Forall2 _ _ _ Hall). cbn.
  destruct demands as [|v vs]; [|reflexivity].
  subst historical_data. inversion Hall.
Qed.

Lemma Forall2_Fin (key : string) (l : list (gmap string float))
    (xs : list R) :
  Forall2 (fun record x => record !! key = Some (Fin x)) l xs ->
  Forall2 (fun record v => record !! key = Some v) l (map Fin xs).
Proof. induction 1; constructor; assumption. Qed.

(** C2: on a non-empty history whose records carry a demand, the safety
    stock returned is [round(1.96 * stdDev, 2)]; the multiplier 1.96 does not
    depend on the desired service level, which is echoed back as it came. *)
Theorem safety_stock_is_fixed_z_score_times_std
    (item : string) (desired_service_level : float)
    (historical_data : list (gmap string float)) (demands : list float) :
  historical_data <> [] ->
  Forall2 (fun record v => record !! "demand" = Some v)
          historical_data demands ->
  exists r,
    optimize_safety_stock item desired_service_level
      (Response 200 historical_data) = Ok r
    /\ safety_stock r = round (fmul (Fin 1.96) (np_std demands)) 2
    /\ service_level r = desired_service_level
    /\ forall other_level, exists r',
         optimize_safety_stock item other_level
           (Response 200 historical_data) = Ok r'
         /\ safety_stock r' = safety_stock r
         /\ service_level r' = other_level.
Proof.
  intros Hne Hall. eexists. split.
  - apply (optimize_safety_stock_returns _ _ _ _ Hne Hall).
  - cbn. repeat split. intros other. eexists. split.
    + apply (optimize_safety_stock_returns _ _ _ _ Hne Hall).
    + split; reflexivity.
Qed.

Lemma safety_stock_is_fixed_z_score_times_std_witness :
  exists r,
    optimize_safety_stock "A1" (Fin 0.5)
      (Response 200 [ {[ "demand" := Fin 8 ]}; {[ "demand" := Fin 12 ]} ])
    = Ok r
    /\ safety_stock r = round (fmul (Fin 1.96) (np_std [Fin 8; Fin 12])) 2
    /\ service_level r = Fin 0.5
    /\ forall other_level, exists r',
         optimize_safety_stock "A1" other_level
           (Response 200 [ {[ "demand" := Fin 8 ]}; {[ "demand" := Fin 12 ]} ])
         = Ok r'
         /\ safety_stock r' = safety_stock r
         /\ service_level r' = other_level.
Proof.
  apply (safety_stock_is_fixed_z_score_times_std "A1" (Fin 0.5)
           [ {[ "demand" := Fin 8 ]}; {[ "demand" := Fin 12 ]} ]
           [Fin 8; Fin 12]).
  - discriminate.
  - repeat constructor.
Defined.

(** C3: on a non-empty sequence of numbers the estimator returns the
    population mean and the population standard deviation (divisor n); for
    [8, 12, 10, 10] the mean is 10, the standard deviation is sqrt 2, about
    1.414, which the divisor n - 1 would not give, and the safety stock is
    2.77. *)
Theorem estimator_is_population_statistics :
  (forall xs : list R, xs <> [] ->
     np_mean (map Fin xs) = Fin (population_mean xs)
     /\ np_std (map Fin xs) = Fin (population_std xs))
  /\ np_mean [Fin 8; Fin 12; Fin 10; Fin 10] = Fin 10
  /\ np_std [Fin 8; Fin 12; Fin 10; Fin 10] = Fin (sqrt 2)
  /\ (1.414 < sqrt 2 < 1.415)%R
  /\ sample_std [8; 12; 10; 10]%R <> sqrt 2
  /\ forall item desired_service_level, exists r,
       optimize_safety_stock item desired_service_level
         (Response 200 [ {[ "demand" := Fin 8 ]}; {[ "demand" := Fin 12 ]};
                         {[ "demand" := Fin 10 ]}; {[ "demand" := Fin 10 ]} ])
       = Ok r
       /\ safety_stock r = Fin 2.77.
Proof.
  assert (Hm : np_mean [Fin 8; Fin 12; Fin 10; Fin 10] = Fin 10).
  { change [Fin 8; Fin 12; Fin 10; Fin 10]
      with (map Fin [8; 12; 10; 10]%R).
    rewrite np_mean_Fin by discriminate. rewrite example_mean. reflexivity. }
  assert (Hs : np_std [Fin 8; Fin 12; Fin 10; Fin 10] = Fin (sqrt 2)).
  { change [Fin 8; Fin 12; Fin 10; Fin 10]
      with (map Fin [8; 12; 10; 10]%R).
    rewrite np_std_Fin by discriminate. rewrite example_std. reflexivity. }
  split; [|split; [exact Hm|split; [exact Hs|split; [|split]]]].
  - intros xs Hne. split; [apply np_mean_Fin|apply np_std_Fin]; exact Hne.
  - exact sqrt_2_bounds.
  - rewrite example_sample_std. intros H.
    apply sqrt_inj in H; lra.
  - intros item level. eexists. split.
    + apply (optimize_safety_stock_returns item level _
               [Fin 8; Fin 12; Fin 10; Fin 10]).
      * discriminate.
      * repeat constructor.
    + cbn [safety_stock]. rewrite Hs. apply round_safety_stock_example.
Qed.

Lemma estimator_is_population_statistics_witness :
  np_mean (map Fin [3; 5]%R) = Fin (population_mean [3; 5]%R)
  /\ np_std (map Fin [3; 5]%R) = Fin (population_std [3; 5]%R).
Proof.
  apply (proj1 estimator_is_population_statistics [3; 5]%R). discriminate.
Defined.

(** The numeric reading of [fge x 0]. *)
Lemma round_nonneg (x : R) (ndigits : nat) :
  (0 <= x)%R -> fge (round (Fin x) ndigits) (Fin 0) = true.
Proof.
  intros Hx. cbn [round fge].
  assert (0 < 10 ^ ndigits)%R as Hp by (apply pow_lt; lra).
  assert (0 <= IZR (rint (x * 10 ^ ndigits)))%R as Hr.
  { apply IZR_le. apply rint_nonneg. apply Rmult_le_pos; lra. }
  pose proof (Rle_mult_inv_pos _ _ Hr Hp) as H.
  destruct (Rle_dec _ _) as [|Hn]; [reflexivity|].
  exfalso. apply Hn. exact H.
Qed.

(** C6: on a non-empty history of numeric demands the safety stock returned
    compares [>= 0]. *)
Theorem safety_stock_is_not_negative
    (item : string) (desired_service_level : float)
    (historical_data : list (gmap string float)) (xs : list R) :
  historical_data <> [] ->
  Forall2 (fun record x => record !! "demand" = Some (Fin x))
          historical_data xs ->
  exists r,
    optimize_safety_stock item desired_service_level
      (Response 200 historical_data) = Ok r
    /\ fge (safety_stock r) (Fin 0) = true.
Proof.
  intros Hne Hall. eexists. split.
  - apply (optimize_safety_stock_returns _ _ _ _ Hne (Forall2_Fin _ _ _ Hall)).
  - cbn [safety_stock].
    assert (xs <> []) as Hxs.
    { intros ->. inversion Hall. congruence. }
    rewrite (np_std_Fin xs Hxs). cbn [fmul]. apply round_nonneg.
    apply Rmult_le_pos; [lra|apply sqrt_pos].
Qed.

Lemma safety_stock_is_not_negative_witness :
  exists r,
    optimize_safety_stock "A1" (Fin 0.95)
      (Response 200 [ {[ "demand" := Fin 10 ]}; {[ "demand" := Fin 4 ]} ])
    = Ok r
    /\ fge (safety_stock r) (Fin 0) = true.
Proof.
  apply (safety_stock_is_not_negative "A1" (Fin 0.95)
           [ {[ "demand" := Fin 10 ]}; {[ "demand" := Fin 4 ]} ]
           [10; 4]%R).
  - discriminate.
  - repeat constructor.
Defined.

(** A demand that is not a number is outside the claim: the result is NaN,
    which compares false with everything. *)
Example safety_stock_of_nan_demand :
  exists r,
    optimize_safety_stock "A1" (Fin 0.95)
      (Response 200 [ {[ "demand" := NaN ]} ]) = Ok r
    /\ safety_stock r = NaN
    /\ fge (safety_stock r) (Fin 0) = false.
Proof.
  eexists. split.
  - apply (optimize_safety_stock_returns _ _ _ [NaN]).
    + discriminate.
    + repeat constructor.
  - split; reflexivity.
Qed.

(** ** Failures of optimize_safety_stock, by kind *)



Lemma forallb_has_field_false key (l : list (gmap string float)) :
  forallb (has_field key) l = false ->
  exists record, record ∈ l /\ record !! key = None.
Proof.
  induction l as [|x l IH]; cbn [forallb]; [discriminate|].
  intros H. apply andb_false_iff in H as [Hx|Hl].
  - exists x. split; [apply elem_of_cons; left; reflexivity|].
    apply bool_decide_eq_false in Hx.
    destruct (x !! key) eqn:E; [|reflexivity].
    exfalso. apply Hx. eexists. reflexivity.
  - destruct (IH Hl) as (r & Hin & Hr). exists r.
    split; [apply elem_of_cons; right; exact Hin|exact Hr].
Qed.



(** ** The day loop of simulate_lead_time *)

Lemma add_days_in_range (d : datetime) (days : Z) :
  (0 < toordinal d + days <= MAXORDINAL)%Z ->
  add_days d days = Ok (plus_days d days).
Proof.
  intros H. unfold add_days. cbn zeta.
  rewrite bool_decide_eq_true_2 by exact H. reflexivity.
Qed.

Lemma np_random_normal_draw (loc : float) (a : list float)
    (rs : RandomState) :
  np_random_normal loc (np_std a) rs
  = Ok (fadd loc (fmul (np_std a) (Fin (rs O))), fun k => rs (S k)).
Proof. unfold np_random_normal. rewrite np_std_not_negative. reflexivity. Qed.

Lemma loop_body_step (now : datetime) (daily_demands : list float)
    (rs : RandomState) (st : loop_state) (k : nat) :
  (0 < toordinal now + Z.of_nat k <= MAXORDINAL)%Z ->
  current_inventory st = inventory_after (drawn_demand daily_demands rs) k ->
  (forall i, random_state st i = rs (k + i)) ->
  loop_body now (np_mean daily_demands) daily_demands st k
  = Ok {| current_inventory :=
            inventory_after (drawn_demand daily_demands rs) (S k);
          inventory_levels :=
            inventory_levels st
            ++ [day_entry now (drawn_demand daily_demands rs) k];
          random_state := fun i => random_state st (S i) |}.
Proof.
  intros Hrange Hinv Hrs. unfold loop_body.
  rewrite np_random_normal_draw. cbn [mbind result_bind fst snd].
  rewrite (add_days_in_range _ _ Hrange). cbn [mbind result_bind].
  rewrite Hinv, (Hrs O), Nat.add_0_r. reflexivity.
Qed.

Lemma for_each_days (now : datetime) (daily_demands : list float)
    (rs : RandomState) (n : nat) :
  forall (k : nat) (st : loop_state),
    (0 < toordinal now)%Z ->
    (toordinal now + Z.of_nat (k + n) <= MAXORDINAL + 1)%Z ->
    current_inventory st
    = inventory_after (drawn_demand daily_demands rs) k ->
    (forall i, random_state st i = rs (k + i)) ->
    exists st',
      for_each (loop_body now (np_mean daily_demands) daily_demands)
               (seq k n) st = Ok st'
      /\ current_inventory st'
         = inventory_after (drawn_demand daily_demands rs) (k + n)
      /\ inventory_levels st'
         = inventory_levels st
           ++ map (day_entry now (drawn_demand daily_demands rs)) (seq k n)
      /\ forall i, random_state st' i = rs (k + n + i).
Proof.
  induction n as [|n IH]; intros k st Hpos Hmax Hinv Hrs.
  - exists st. cbn [seq for_each map]. rewrite app_nil_r, Nat.add_0_r.
    repeat split; assumption.
  - cbn [seq for_each].
    rewrite (loop_body_step now daily_demands rs st k); [|lia|exact Hinv|exact Hrs].
    cbn [mbind result_bind].
    match goal with
    | |- context [for_each _ _ ?s] =>
      destruct (IH (S k) s) as (st' & Hrun & Hinv' & Hlev & Hrs');
        [exact Hpos| |reflexivity| |]
    end.
    + replace (S k + n) with (k + S n) by lia. exact Hmax.
    + intros i. cbn [random_state]. rewrite Hrs. f_equal. lia.
    + exists st'. split; [exact Hrun|].
      replace (k + S n) with (S k + n) by lia.
      split; [exact Hinv'|]. split; [|exact Hrs'].
      rewrite Hlev. cbn [inventory_levels map].
      rewrite <- app_assoc. reflexivity.
Qed.

(** What a call returns when every demand record has its quantity and the
    thirty dates exist. *)
Lemma simulate_lead_time_returns (item : string) (lead_times : list Z)
    (demand_data : list (gmap string float)) (daily_demands : list float)
    (now : datetime) (rs : RandomState) :
  Forall2 (fun record v => record !! "quantity" = Some v)
          demand_data daily_demands ->
  (0 < toordinal now)%Z ->
  (toordinal now + 29 <= MAXORDINAL)%Z ->
  simulate_lead_time item lead_times demand_data now rs
  = Ok {| sim_item_id := item;
          average_lead_time := round (np_mean (map of_int lead_times)) 2;
          std_lead_time := round (np_std (map of_int lead_times)) 2;
          simulation_results :=
            map (day_entry now (drawn_demand daily_demands rs))
                (seq 0 simulation_days) |}.
Proof.
  intros Hall Hpos Hmax. unfold simulate_lead_time.
  rewrite (comprehension_Forall2 _ _ _ Hall). cbn [mbind result_bind].
  match goal with
  | |- context [for_each _ _ ?s] =>
    destruct (for_each_days now daily_demands rs simulation_days 0 s)
      as (st' & Hrun & _ & Hlev & _);
      [exact Hpos| |reflexivity| |]
  end.
  - unfold simulation_days. lia.
  - intros i. reflexivity.
  - rewrite Hrun. cbn [mbind result_bind]. rewrite Hlev. reflexivity.
Qed.

Lemma lookup_day_entry (now : datetime) (demand : nat -> float) (d : nat) :
  d < simulation_days ->
  map (day_entry now demand) (seq 0 simulation_days) !! d
  = Some (day_entry now demand d).
Proof.
  intros Hd.
  change (map (day_entry now demand) (seq 0 simulation_days))
    with (day_entry now demand <$> seq 0 simulation_days).
  rewrite list_lookup_fmap, lookup_seq_lt by exact Hd. reflexivity.
Qed.

(** ** Dates of the simulated days *)

Lemma timestamp_plus_days (now : datetime) (days : Z) :
  timestamp (plus_days now days)
  = (timestamp now + days * 86400000000)%Z.
Proof. unfold timestamp, plus_days. cbn. lia. Qed.

(** C4: with every demand record carrying its quantity, a call returns
    exactly 30 day entries; entry [d] is dated call time plus [d] days, for
    d = 0, ..., 29, so the entries are in strictly increasing chronological
    order. *)
Theorem simulation_returns_thirty_days_in_order
    (item : string) (lead_times : list Z)
    (demand_data : list (gmap string float))
    (now : datetime) (rs : RandomState)
    (Hfields : forallb (has_field "quantity") demand_data = true)
    (Hpos : (0 < toordinal now)%Z)
    (Hmax : (toordinal now + 29 <= MAXORDINAL)%Z) :
  exists r,
    simulate_lead_time item lead_times demand_data now rs = Ok r
    /\ length (simulation_results r) = 30
    /\ (forall d, d < 30 ->
          exists entry day,
            simulation_results r !! d = Some entry
            /\ add_days now (Z.of_nat d) = Ok day
            /\ date entry = isoformat day
            /\ timestamp day
               = (timestamp now + Z.of_nat d * 86400000000)%Z)
    /\ (forall i j dayi dayj,
          i < j -> j < 30 ->
          add_days now (Z.of_nat i) = Ok dayi ->
          add_days now (Z.of_nat j) = Ok dayj ->
          (timestamp dayi < timestamp dayj)%Z).
Proof.
  destruct (comprehension_present _ _ Hfields) as (demands & _ & _ & HF).
  eexists. split; [apply (simulate_lead_time_returns _ _ _ _ _ _ HF Hpos Hmax)|].
  cbn [simulation_results]. split; [|split].
  - rewrite length_map, length_seq. reflexivity.
  - intros d Hd. exists (day_entry now (drawn_demand demands rs) d).
    exists (plus_days now (Z.of_nat d)). split; [|split; [|split]].
    + apply lookup_day_entry. exact Hd.
    + apply add_days_in_range. lia.
    + reflexivity.
    + apply timestamp_plus_days.
  - intros i j dayi dayj Hij Hj Hi' Hj'.
    rewrite add_days_in_range in Hi' by lia.
    rewrite add_days_in_range in Hj' by lia.
    injection Hi' as <-. injection Hj' as <-.
    rewrite !timestamp_plus_days. lia.
Qed.

Lemma simulation_returns_thirty_days_in_order_witness :
  exists r,
    simulate_lead_time "A1" [5; 7; 6]%Z [ {[ "quantity" := Fin 4 ]} ]
      example_now (fun _ => 0%R) = Ok r
    /\ length (simulation_results r) = 30
    /\ (forall d, d < 30 ->
          exists entry day,
            simulation_results r !! d = Some entry
            /\ add_days example_now (Z.of_nat d) = Ok day
            /\ date entry = isoformat day
            /\ timestamp day
               = (timestamp example_now + Z.of_nat d * 86400000000)%Z)
    /\ (forall i j dayi dayj,
          i < j -> j < 30 ->
          add_days example_now (Z.of_nat i) = Ok dayi ->
          add_days example_now (Z.of_nat j) = Ok dayj ->
          (timestamp dayi < timestamp dayj)%Z).
Proof.
  apply (simulation_returns_thirty_days_in_order "A1" [5; 7; 6]%Z
           [ {[ "quantity" := Fin 4 ]} ] example_now (fun _ => 0%R)).
  - reflexivity.
  - reflexivity.
  - discriminate.
Defined.

(** ** The state transition of a day *)

Lemma day_transition_Fin (s q : R) :
  ((s - q < 20)%R -> day_transition (Fin s) (Fin q) = Fin (s - q + 100))
  /\ ((20 <= s - q)%R -> day_transition (Fin s) (Fin q) = Fin (s - q)).
Proof.
  unfold day_transition. cbn [fsub flt fadd].
  destruct (Rlt_dec (s - q) 20); split; intros; try reflexivity; lra.
Qed.

Lemma day_transition_cases (inventory demand : float) :
  day_transition inventory demand = fsub inventory demand
  \/ day_transition inventory demand
     = fadd (fsub inventory demand) (Fin 100).
Proof. unfold day_transition. destruct (flt _ _); [right|left]; reflexivity. Qed.

(** C5: on each simulated day the drawn demand is subtracted from the
    stock, then 100 is added if and only if the stock is below 20, and the
    level recorded for the day is the stock after that, rounded to 2
    decimals. *)
Theorem each_day_subtracts_replenishes_then_records
    (item : string) (lead_times : list Z)
    (demand_data : list (gmap string float)) (daily_demands : list float)
    (now : datetime) (rs : RandomState)
    (Hfields : Forall2 (fun record v => record !! "quantity" = Some v)
                       demand_data daily_demands)
    (Hpos : (0 < toordinal now)%Z)
    (Hmax : (toordinal now + 29 <= MAXORDINAL)%Z) :
  exists (r : SimulationResult) (stock demand : nat -> float),
    simulate_lead_time item lead_times demand_data now rs = Ok r
    /\ demand = drawn_demand daily_demands rs
    /\ stock 0 = Fin 100
    /\ forall d, d < 30 ->
         (exists entry,
            simulation_results r !! d = Some entry
            /\ inventory_level entry = round (stock (S d)) 2)
         /\ stock (S d)
            = (if flt (fsub (stock d) (demand d)) (Fin 20)
               then fadd (fsub (stock d) (demand d)) (Fin 100)
               else fsub (stock d) (demand d))
         /\ forall s q, stock d = Fin s -> demand d = Fin q ->
              ((s - q < 20)%R -> stock (S d) = Fin (s - q + 100))
              /\ ((20 <= s - q)%R -> stock (S d) = Fin (s - q)).
Proof.
  exists {| sim_item_id := item;
            average_lead_time := round (np_mean (map of_int lead_times)) 2;
            std_lead_time := round (np_std (map of_int lead_times)) 2;
            simulation_results :=
              map (day_entry now (drawn_demand daily_demands rs))
                  (seq 0 simulation_days) |}.
  exists (inventory_after (drawn_demand daily_demands rs)).
  exists (drawn_demand daily_demands rs).
  split; [apply (simulate_lead_time_returns _ _ _ _ _ _ Hfields Hpos Hmax)|].
  split; [reflexivity|]. split; [reflexivity|].
  intros d Hd. split; [|split].
  - eexists. split; [apply lookup_day_entry; exact Hd|reflexivity].
  - reflexivity.
  - intros s q Hs Hq. cbn [inventory_after]. rewrite Hs, Hq.
    apply day_transition_Fin.
Qed.

Lemma each_day_subtracts_replenishes_then_records_witness :
  exists (r : SimulationResult) (stock demand : nat -> float),
    simulate_lead_time "A1" [5; 7; 6]%Z [ {[ "quantity" := Fin 4 ]} ]
      example_now (fun _ => 0%R) = Ok r
    /\ demand = drawn_demand [Fin 4] (fun _ => 0%R)
    /\ stock 0 = Fin 100
    /\ forall d, d < 30 ->
         (exists entry,
            simulation_results r !! d = Some entry
            /\ inventory_level entry = round (stock (S d)) 2)
         /\ stock (S d)
            = (if flt (fsub (stock d) (demand d)) (Fin 20)
               then fadd (fsub (stock d) (demand d)) (Fin 100)
               else fsub (stock d) (demand d))
         /\ forall s q, stock d = Fin s -> demand d = Fin q ->
              ((s - q < 20)%R -> stock (S d) = Fin (s - q + 100))
              /\ ((20 <= s - q)%R -> stock (S d) = Fin (s - q)).
Proof.
  apply (each_day_subtracts_replenishes_then_records "A1" [5; 7; 6]%Z
           [ {[ "quantity" := Fin 4 ]} ] [Fin 4] example_now (fun _ => 0%R)).
  - repeat constructor.
  - reflexivity.
  - discriminate.
Defined.

(** C9: the inventory trajectory does not depend on the lead times: with the
    same demand data, call time and random draws, two calls that differ in
    their lead times fail alike or return the same days; the lead times show
    only in [average_lead_time] and [std_lead_time]. *)
Theorem trajectory_is_independent_of_lead_times
    (item : string) (lead_times1 lead_times2 : list Z)
    (demand_data : list (gmap string float))
    (now : datetime) (rs : RandomState) :
  match simulate_lead_time item lead_times1 demand_data now rs,
        simulate_lead_time item lead_times2 demand_data now rs with
  | Ok r1, Ok r2 =>
    simulation_results r1 = simulation_results r2
    /\ sim_item_id r1 = sim_item_id r2
    /\ average_lead_time r1 = round (np_mean (map of_int lead_times1)) 2
    /\ std_lead_time r1 = round (np_std (map of_int lead_times1)) 2
    /\ average_lead_time r2 = round (np_mean (map of_int lead_times2)) 2
    /\ std_lead_time r2 = round (np_std (map of_int lead_times2)) 2
  | Raise e1, Raise e2 => e1 = e2
  | _, _ => False
  end.
Proof.
  unfold simulate_lead_time.
  destruct (comprehension _ demand_data) as [daily_demands|e];
    cbn [mbind result_bind]; [|reflexivity].
  destruct (for_each _ _ _) as [st|e]; cbn [mbind result_bind];
    [|reflexivity].
  repeat split.
Qed.

(** ** A day whose demand exceeds the stock by more than the replenishment *)

Lemma round_hundredths (n : Z) :
  round (Fin (IZR n / 100)) 2 = Fin (IZR n / 100).
Proof.
  cbn [round]. rewrite pow_10_2.
  replace (IZR n / 100 * 100)%R with (IZR n) by lra.
  rewrite rint_IZR. reflexivity.
Qed.

Lemma single_record_statistics (x : R) :
  np_mean [Fin x] = Fin x /\ np_std [Fin x] = Fin 0.
Proof.
  change [Fin x] with (map Fin [x]).
  rewrite np_mean_Fin, np_std_Fin by discriminate.
  assert (population_mean [x] = x) as Hm.
  { unfold population_mean. simpl. lra. }
  split; [rewrite Hm; reflexivity|].
  unfold population_std, squared_deviations. rewrite Hm. f_equal.
  rewrite <- sqrt_0. f_equal. simpl. lra.
Qed.

Lemma drawn_demand_single_record (x : R) (rs : RandomState) (d : nat) :
  drawn_demand [Fin x] rs d = Fin (x + 0 * rs d).
Proof.
  unfold drawn_demand. destruct (single_record_statistics x) as [-> ->].
  reflexivity.
Qed.

(** C10: a day replenishes at most once, by 100: the stock after the day is
    the stock after the demand, or that plus 100.  So a demand more than 80
    above the stock leaves the day's stock below 20 despite the
    replenishment, and one more than 100 above it leaves it negative; with a
    single demand record of 250 the level recorded for day 0 is -50. *)
Theorem replenishment_is_at_most_once_per_day :
  (forall (item : string) (lead_times : list Z)
          (demand_data : list (gmap string float))
          (daily_demands : list float) (now : datetime) (rs : RandomState),
     Forall2 (fun record v => record !! "quantity" = Some v)
             demand_data daily_demands ->
     (0 < toordinal now)%Z ->
     (toordinal now + 29 <= MAXORDINAL)%Z ->
     exists (r : SimulationResult) (stock demand : nat -> float),
       simulate_lead_time item lead_times demand_data now rs = Ok r
       /\ demand = drawn_demand daily_demands rs
       /\ stock 0 = Fin 100
       /\ forall d, d < 30 ->
            (exists entry,
               simulation_results r !! d = Some entry
               /\ inventory_level entry = round (stock (S d)) 2)
            /\ (stock (S d) = fsub (stock d) (demand d)
                \/ stock (S d) = fadd (fsub (stock d) (demand d)) (Fin 100))
            /\ forall s q, stock d = Fin s -> demand d = Fin q ->
                 ((s + 80 < q)%R ->
                  stock (S d) = Fin (s - q + 100)
                  /\ flt (stock (S d)) (Fin 20) = true)
                 /\ ((s + 100 < q)%R ->
                     flt (stock (S d)) (Fin 0) = true))
  /\
  (exists r entry,
     simulate_lead_time "A1" [5; 7; 6]%Z [ {[ "quantity" := Fin 250 ]} ]
       example_now (fun _ => 0%R) = Ok r
     /\ simulation_results r !! 0 = Some entry
     /\ inventory_level entry = Fin (-50)
     /\ flt (inventory_level entry) (Fin 20) = true
     /\ flt (inventory_level entry) (Fin 0) = true).
Proof.
  split.
  - intros item lead_times demand_data daily_demands now rs Hfields Hpos Hmax.
    eexists. exists (inventory_after (drawn_demand daily_demands rs)).
    exists (drawn_demand daily_demands rs).
    split;
      [apply (simulate_lead_time_returns _ _ _ _ _ _ Hfields Hpos Hmax)|].
    split; [reflexivity|]. split; [reflexivity|].
    intros d Hd. split; [|split].
    + eexists. split; [apply lookup_day_entry; exact Hd|reflexivity].
    + apply day_transition_cases.
    + intros s q Hs Hq. cbn [inventory_after]. rewrite Hs, Hq.
      destruct (day_transition_Fin s q) as [Hlow _].
      split.
      * intros Hbig. rewrite Hlow by lra. split; [reflexivity|].
        cbn [flt]. destruct (Rlt_dec _ _); [reflexivity|lra].
      * intros Hbig. rewrite Hlow by lra.
        cbn [flt]. destruct (Rlt_dec _ _); [reflexivity|lra].
  - eexists. eexists. split.
    + apply (simulate_lead_time_returns _ _ _ [Fin 250]).
      * repeat constructor.
      * reflexivity.
      * discriminate.
    + cbn [simulation_results]. split.
      * apply lookup_day_entry. unfold simulation_days. lia.
      * assert (inventory_level
                  (day_entry example_now
                     (drawn_demand [Fin 250] (fun _ => 0%R)) 0)
                = Fin (-50)) as ->.
        { cbn [day_entry inventory_level inventory_after].
          rewrite drawn_demand_single_record.
          rewrite (proj1 (day_transition_Fin 100 (250 + 0 * 0))) by lra.
          replace (100 - (250 + 0 * 0) + 100)%R with (IZR (-5000) / 100)%R
            by lra.
          rewrite round_hundredths. f_equal. lra. }
        split; [reflexivity|].
        cbn [flt]. split; destruct (Rlt_dec _ _); try reflexivity; lra.
Qed.

Lemma replenishment_is_at_most_once_per_day_witness :
  exists (r : SimulationResult) (stock demand : nat -> float),
    simulate_lead_time "A1" [5; 7; 6]%Z [ {[ "quantity" := Fin 250 ]} ]
      example_now (fun _ => 0%R) = Ok r
    /\ demand = drawn_demand [Fin 250] (fun _ => 0%R)
    /\ stock 0 = Fin 100
    /\ forall d, d < 30 ->
         (exists entry,
            simulation_results r !! d = Some entry
            /\ inventory_level entry = round (stock (S d)) 2)
         /\ (stock (S d) = fsub (stock d) (demand d)
             \/ stock (S d) = fadd (fsub (stock d) (demand d)) (Fin 100))
         /\ forall s q, stock d = Fin s -> demand d = Fin q ->
              ((s + 80 < q)%R ->
               stock (S d) = Fin (s - q + 100)
               /\ flt (stock (S d)) (Fin 20) = true)
              /\ ((s + 100 < q)%R ->
                  flt (stock (S d)) (Fin 0) = true).
Proof.
  apply (proj1 replenishment_is_at_most_once_per_day "A1" [5; 7; 6]%Z
           [ {[ "quantity" := Fin 250 ]} ] [Fin 250] example_now
           (fun _ => 0%R)).
  - repeat constructor.
  - reflexivity.
  - discriminate.
Defined.

(** ** Empty inputs *)







(** * Further properties *)

(** ** Accuracy of rounding *)

Lemma rint_error (x : R) : (x - 1/2 <= IZR (rint x) <= x + 1/2)%R.
Proof.
  unfold rint. pose proof (Int_part_bounds x) as Hb.
  destruct (Rlt_dec _ _) as [H1|H1]; [lra|].
  destruct (Rlt_dec _ _) as [H2|H2]; [rewrite plus_IZR; lra|].
  destruct (Z.even _); [|rewrite plus_IZR]; lra.
Qed.

Lemma rint_lower (x : R) (n : Z) : (IZR n <= x)%R -> (n <= rint x)%Z.
Proof.
  intros H. pose proof (rint_error x) as He.
  assert (n - 1 < rint x)%Z by (apply lt_IZR; rewrite minus_IZR; lra).
  lia.
Qed.

Lemma rint_upper (x : R) (n : Z) : (x <= IZR n)%R -> (rint x <= n)%Z.
Proof.
  intros H. pose proof (rint_error x) as He.
  assert (rint x < n + 1)%Z by (apply lt_IZR; rewrite plus_IZR; lra).
  lia.
Qed.


Lemma round_2_between (x : R) (lo hi : Z) :
  (IZR lo / 100 <= x <= IZR hi / 100)%R ->
  exists v, round (Fin x) 2 = Fin v
            /\ (IZR lo / 100 <= v <= IZR hi / 100)%R.
Proof.
  intros [Hlo Hhi]. eexists. cbn [round]. rewrite pow_10_2.
  split; [reflexivity|].
  assert (lo <= rint (x * 100))%Z as H1 by (apply rint_lower; lra).
  assert (rint (x * 100) <= hi)%Z as H2 by (apply rint_upper; lra).
  apply IZR_le in H1, H2. lra.
Qed.

(** ** A sample whose values are all equal *)





(** ** How optimize_safety_stock fails *)

Lemma optimize_safety_stock_raises_cases
    (item : string) (desired_service_level : float) (net : upstream)
    (e : exn) :
  optimize_safety_stock item desired_service_level net = Raise e ->
  (exists msg,
     net = ClientErrorRaised msg
     /\ e = Exception ("Error connecting to historical data API: " +:+ msg))
  \/ (exists status body,
        net = Response status body /\ status <> 200%Z
        /\ e = Exception
                 ("Unexpected error: Failed to fetch historical data: HTTP "
                  +:+ pretty status))
  \/ (net = Response 200 []
      /\ e = Exception
               "Unexpected error: No historical data received from API")
  \/ (exists body,
        net = Response 200 body
        /\ (exists record, record ∈ body /\ record !! "demand" = None)
        /\ e = Exception
                 "Unexpected error: Invalid data format in historical records: 'demand'").
Proof.
  destruct net as [msg|status body].
  - cbn. intros [= <-]. left. exists msg. split; reflexivity.
  - destruct (decide (status = 200%Z)) as [->|Hne].
    + destruct body as [|r0 l0] eqn:E.
      * cbn. intros [= <-]. right; right; left. split; reflexivity.
      * rewrite <- E.
        destruct (forallb (has_field "demand") body) eqn:Hall.
        -- destruct (comprehension_present _ _ Hall)
             as (demands & _ & _ & HF).
           rewrite (optimize_safety_stock_returns item
                      desired_service_level body demands);
             [discriminate|congruence|exact HF].
        -- apply forallb_has_field_false in Hall. intros He.
           right; right; right. exists body.
           split; [reflexivity|]. split; [exact Hall|].
           revert He. unfold optimize_safety_stock. cbn. rewrite E.
           rewrite <- E. unfold process_historical_data.
           rewrite (comprehension_missing _ _ Hall). cbn.
           intros [= <-]. reflexivity.
    + unfold optimize_safety_stock.
      rewrite bool_decide_eq_true_2 by exact Hne. cbn.
      intros [= <-]. right; left. exists status, body.
      split; [reflexivity|]. split; [exact Hne|reflexivity].
Qed.





(** ** What optimize_safety_stock returns *)







(** ** When optimize_safety_stock returns *)




(** ** The simulated stock as a sequence of numbers *)




Lemma elem_of_day_entries (now : datetime) (demand : nat -> float)
    (entry : SimulationDay) :
  entry ∈ map (day_entry now demand) (seq 0 simulation_days) ->
  exists d, d < simulation_days /\ entry = day_entry now demand d.
Proof.
  intros Hin. apply list_elem_of_In, in_map_iff in Hin as (d & <- & Hd).
  apply in_seq in Hd. exists d. split; [lia|reflexivity].
Qed.



(** ** Demands between 0 and 100 *)

Lemma inventory_stays_in_band (demand : nat -> float) (n : nat) :
  (forall d, d < n -> exists q, demand d = Fin q /\ (0 <= q <= 100)%R) ->
  forall d, d <= n ->
    exists s, inventory_after demand d = Fin s /\ (20 <= s <= 120)%R.
Proof.
  intros Hdemand. induction d as [|d IH]; intros Hd.
  - exists 100%R. split; [reflexivity|lra].
  - destruct IH as (s & Hs & Hband); [lia|].
    destruct (Hdemand d) as (q & Hq & Hrange); [lia|].
    cbn [inventory_after]. rewrite Hs, Hq.
    destruct (day_transition_Fin s q) as [Hlow Hhigh].
    destruct (Rlt_dec (s - q) 20) as [Hlt|Hge].
    + rewrite Hlow by exact Hlt. eexists. split; [reflexivity|lra].
    + rewrite Hhigh by lra. eexists. split; [reflexivity|lra].
Qed.

(** X6: as long as every drawn demand lies between 0 and 100, every
    recorded inventory level lies between 20 and 120: at the end of a day the
    stock is never below the reorder threshold, and never above the start
    stock plus 20. *)
Theorem levels_stay_between_20_and_120
    (item : string) (lead_times : list Z)
    (demand_data : list (gmap string float)) (daily_demands : list float)
    (now : datetime) (rs : RandomState)
    (Hfields : Forall2 (fun record v => record !! "quantity" = Some v)
                       demand_data daily_demands)
    (Hpos : (0 < toordinal now)%Z)
    (Hmax : (toordinal now + 29 <= MAXORDINAL)%Z)
    (Hdemand : forall d, d < 30 ->
                 exists q, drawn_demand daily_demands rs d = Fin q
                           /\ (0 <= q <= 100)%R) :
  exists r,
    simulate_lead_time item lead_times demand_data now rs = Ok r
    /\ forall entry, entry ∈ simulation_results r ->
         exists v, inventory_level entry = Fin v /\ (20 <= v <= 120)%R.
Proof.
  eexists. split;
    [apply (simulate_lead_time_returns _ _ _ _ _ _ Hfields Hpos Hmax)|].
  cbn [simulation_results]. intros entry Hin.
  apply elem_of_day_entries in Hin as (d & Hd & ->).
  unfold simulation_days in Hd.
  destruct (inventory_stays_in_band _ 30 Hdemand (S d)) as (s & Hs & Hband);
    [lia|].
  cbn [day_entry inventory_level]. rewrite Hs.
  destruct (round_2_between s 2000 12000) as (v & Hv & Hvband); [lra|].
  exists v. split; [exact Hv|lra].
Qed.

Lemma levels_stay_between_20_and_120_witness :
  exists r,
    simulate_lead_time "A1" [5; 7; 6]%Z [ {[ "quantity" := Fin 4 ]} ]
      example_now (fun _ => 1%R) = Ok r
    /\ forall entry, entry ∈ simulation_results r ->
         exists v, inventory_level entry = Fin v /\ (20 <= v <= 120)%R.
Proof.
  apply (levels_stay_between_20_and_120 "A1" [5; 7; 6]%Z
           [ {[ "quantity" := Fin 4 ]} ] [Fin 4] example_now (fun _ => 1%R)).
  - repeat constructor.
  - reflexivity.
  - discriminate.
  - intros d _. exists (4 + 0 * 1)%R.
    split; [apply drawn_demand_single_record|lra].
Defined.

(** ** How simulate_lead_time fails *)







(** ** Demand records that all carry the same quantity *)



(** ** Lead-time statistics *)




(** ** The log of optimize_safety_stock *)

Lemma process_historical_data_logged_missing
    (format_result : SafetyStockResult -> string) (item : string)
    (desired_service_level : float)
    (historical_data : list (gmap string float)) :
  (exists record, record ∈ historical_data /\ record !! "demand" = None) ->
  process_historical_data_logged format_result item desired_service_level
    historical_data
  = ([error_line "Invalid data format in historical records: 'demand'"],
     Raise (Exception "Invalid data format in historical records: 'demand'")).
Proof.
  intros Hmiss. unfold process_historical_data_logged.
  rewrite (comprehension_missing _ _ Hmiss). reflexivity.
Qed.


Lemma logged_connection_error
    (format_result : SafetyStockResult -> string) (item : string)
    (desired_service_level : float) (msg : string) :
  optimize_safety_stock_logged format_result item desired_service_level
    (ClientErrorRaised msg)
  = ([info_line ("Fetching historical data for item " +:+ item);
      error_line ("Error connecting to historical data API: " +:+ msg)],
     Raise (Exception ("Error connecting to historical data API: " +:+ msg))).
Proof. reflexivity. Qed.

Lemma logged_http_status
    (format_result : SafetyStockResult -> string) (item : string)
    (desired_service_level : float) (status : Z)
    (body : list (gmap string float)) :
  status <> 200%Z ->
  optimize_safety_stock_logged format_result item desired_service_level
    (Response status body)
  = ([info_line ("Fetching historical data for item " +:+ item);
      error_line ("Failed to fetch historical data: HTTP " +:+ pretty status);
      error_line ("Unexpected error: Failed to fetch historical data: HTTP "
                  +:+ pretty status)],
     Raise (Exception
              ("Unexpected error: Failed to fetch historical data: HTTP "
               +:+ pretty status))).
Proof.
  intros Hne. unfold optimize_safety_stock_logged.
  rewrite bool_decide_eq_true_2 by exact Hne. reflexivity.
Qed.

Lemma logged_no_data
    (format_result : SafetyStockResult -> string) (item : string)
    (desired_service_level : float) :
  optimize_safety_stock_logged format_result item desired_service_level
    (Response 200 [])
  = ([info_line ("Fetching historical data for item " +:+ item);
      info_line ("Received " +:+ pretty 0 +:+ " data points for item "
                 +:+ item);
      error_line "No historical data received from API";
      error_line "Unexpected error: No historical data received from API"],
     Raise (Exception
              "Unexpected error: No historical data received from API")).
Proof. reflexivity. Qed.

Lemma logged_missing_field
    (format_result : SafetyStockResult -> string) (item : string)
    (desired_service_level : float)
    (historical_data : list (gmap string float)) :
  (exists record, record ∈ historical_data /\ record !! "demand" = None) ->
  optimize_safety_stock_logged format_result item desired_service_level
    (Response 200 historical_data)
  = ([info_line ("Fetching historical data for item " +:+ item);
      info_line ("Received " +:+ pretty (length historical_data)
                 +:+ " data points for item " +:+ item);
      error_line "Invalid data format in historical records: 'demand'";
      error_line
        "Unexpected error: Invalid data format in historical records: 'demand'"],
     Raise (Exception
              "Unexpected error: Invalid data format in historical records: 'demand'")).
Proof.
  intros Hmiss.
  pose proof (process_historical_data_logged_missing format_result item
                desired_service_level _ Hmiss) as Hp.
  unfold optimize_safety_stock_logged.
  destruct historical_data as [|r0 l0].
  - destruct Hmiss as (r & Hin & _). inversion Hin.
  - cbn [bool_decide decide_rel]. 
    change (bool_decide (200%Z <> 200%Z)) with false. cbv iota.
    rewrite Hp. reflexivity.
Qed.


(** X10: whenever [optimize_safety_stock] fails, the first line it logged is
    the INFO line "Fetching historical data for item <item>", and the last
    line it logged is an ERROR line carrying exactly the message of the
    exception the caller receives. *)
Theorem a_failure_is_logged_last_with_its_message
    (format_result : SafetyStockResult -> string) (item : string)
    (desired_service_level : float) (net : upstream) (e : exn)
    (Hfails : optimize_safety_stock item desired_service_level net
              = Raise e) :
  exists between,
    optimize_safety_stock_logged format_result item desired_service_level net
    = (info_line ("Fetching historical data for item " +:+ item)
       :: between ++ [error_line (str e)],
       Raise e).
Proof.
  apply optimize_safety_stock_raises_cases in Hfails
    as [(msg & -> & ->)|[(status & body & -> & Hne & ->)
        |[(-> & ->)|(body & -> & Hmiss & ->)]]].
  - exists []. apply logged_connection_error.
  - eexists [_]. apply (logged_http_status _ _ _ _ _ Hne).
  - eexists [_; _]. apply logged_no_data.
  - eexists [_; _]. apply (logged_missing_field _ _ _ _ Hmiss).
Qed.

Lemma a_failure_is_logged_last_with_its_message_witness :
  exists between,
    optimize_safety_stock_logged (fun _ => "{}") "A1" (Fin 0.95)
      (Response 404 [])
    = (info_line "Fetching historical data for item A1"
       :: between
          ++ [error_line
                "Unexpected error: Failed to fetch historical data: HTTP 404"],
       Raise (Exception
                "Unexpected error: Failed to fetch historical data: HTTP 404")).
Proof.
  apply (a_failure_is_logged_last_with_its_message (fun _ => "{}") "A1"
           (Fin 0.95) (Response 404 [])
           (Exception
              "Unexpected error: Failed to fetch historical data: HTTP 404")).
  reflexivity.
Defined.



